(** * VAP Media MCP agent: the tool-bridge configuration, verified

    A shallow embedding of [contributing/samples/vap_mcp_agent/agent.py].
    The module reads five variables of the process environment, resolves
    the path of the proxy script and builds one [LlmAgent] whose only tool
    is an MCP toolset launched over stdio.

    The process environment is the only input of the module, so every
    module-level name of the source becomes a function of the host state. *)

From Stdlib Require Import ZArith Ascii String.
From stdpp Require Import gmap strings list fin_maps.

Local Open Scope string_scope.

(** ** The host process *)

(** What the module can observe of the process it runs in: [os.environ],
    and the password database that [os.path.expanduser] falls back on. *)
Record Host : Type := mkHost {
  environ : gmap string string;      (* os.environ *)
  getpwuid_dir : option string;      (* pwd.getpwuid(os.getuid()).pw_dir,
                                        None when the lookup raises KeyError *)
  getpwnam_dir : gmap string string  (* pwd.getpwnam(name).pw_dir *)
}.

(** Python's truth value of a [str]: every string but the empty one. *)
Definition truthy (s : string) : bool :=
  match s with
  | EmptyString => false
  | String _ _ => true
  end.

(** A dict display [{k1: v1, ..., kn: vn}]: the items are stored from left
    to right, a later item replacing an earlier one with an equal key. *)
Definition dict_display (items : list (string * string)) : gmap string string :=
  foldl (fun d kv => <[kv.1 := kv.2]> d) ∅ items.

Module Os.

(** [os.getenv(key, default)], that is [os.environ.get(key, default)]:
    the stored value whenever the key is present, also when that value
    is the empty string. *)
Definition getenv (h : Host) (key dflt : string) : string :=
  match environ h !! key with
  | Some v => v
  | None => dflt
  end.

(** [s.rstrip('/')] *)
Fixpoint rstrip_sep (s : string) : string :=
  match s with
  | EmptyString => EmptyString
  | String c s' =>
      match rstrip_sep s' with
      | EmptyString => if Ascii.eqb c "/"%char then EmptyString else String c EmptyString
      | r => String c r
      end
  end.

(** [path[i:]] *)
Definition from_index (i : nat) (path : string) : string :=
  substring i (String.length path - i) path.

(** [path.find('/', 1)], with the length of the path when there is none. *)
Definition find_sep (path : string) : nat :=
  match index 1 "/" path with
  | Some i => i
  | None => String.length path
  end.

(** The home directory of the current user, as [expanduser] finds it for
    a bare tilde: [os.environ['HOME']] when [HOME] is set, the password
    database otherwise. *)
Definition current_userhome (h : Host) : option string :=
  match environ h !! "HOME" with
  | None => getpwuid_dir h
  | Some home => Some home
  end.

(** [os.path.expanduser] of [posixpath], on [str] paths.  A path that
    does not start with a tilde, or whose user has no home directory,
    is returned unchanged. *)
Definition expanduser (h : Host) (path : string) : string :=
  if negb (String.prefix "~" path) then path
  else
    let i := find_sep path in
    let userhome : option string :=
      if Nat.eqb i 1 then current_userhome h
      else getpwnam_dir h !! substring 1 (i - 1) path in
    match userhome with
    | None => path
    | Some home =>
        match rstrip_sep home +:+ from_index i path with
        | EmptyString => "/"
        | p => p
        end
    end.

End Os.

(** ** The data handed to the agent runtime *)

(** [mcp.StdioServerParameters], restricted to the fields the module sets. *)
Record StdioServerParameters : Type := {
  command : string;
  args : list string;
  env : gmap string string
}.

(** [google.adk.tools.mcp_tool.StdioConnectionParams]; the timeout is in
    seconds. *)
Record StdioConnectionParams : Type := {
  server_params : StdioServerParameters;
  timeout : Z
}.

Record MCPToolset : Type := {
  connection_params : StdioConnectionParams
}.

Record LlmAgent : Type := {
  model : string;
  name : string;
  instruction : string;
  tools : list MCPToolset
}.

(** ** The module *)

(** [VAP_API_KEY = os.getenv("VAP_API_KEY", os.getenv("VAPE_API_KEY", ""))] *)
Definition VAP_API_KEY (h : Host) : string :=
  Os.getenv h "VAP_API_KEY" (Os.getenv h "VAPE_API_KEY" "").

(** [VAP_MCP_PROXY_PATH = os.getenv("VAP_MCP_PROXY_PATH",
                                    os.path.expanduser("~/vap_mcp_proxy.py"))] *)
Definition VAP_MCP_PROXY_PATH (h : Host) : string :=
  Os.getenv h "VAP_MCP_PROXY_PATH" (Os.expanduser h "~/vap_mcp_proxy.py").

(** The [env=] argument: a conditional expression over two dict displays. *)
Definition server_env (h : Host) : gmap string string :=
  if truthy (VAP_API_KEY h) then
    dict_display
      [ ("VAP_API_KEY", VAP_API_KEY h);
        ("VAP_API_URL", Os.getenv h "VAP_API_URL" "https://api.vapagent.com/mcp");
        ("VAP_API_BASE_URL", Os.getenv h "VAP_API_BASE_URL" "https://api.vapagent.com") ]
  else
    dict_display
      [ ("VAP_API_URL", Os.getenv h "VAP_API_URL" "https://api.vapagent.com/mcp");
        ("VAP_API_BASE_URL", Os.getenv h "VAP_API_BASE_URL" "https://api.vapagent.com") ].

Definition stdio_server_parameters (h : Host) : StdioServerParameters :=
  {| command := "python";
     args := [VAP_MCP_PROXY_PATH h];
     env := server_env h |}.

Definition stdio_connection_params (h : Host) : StdioConnectionParams :=
  {| server_params := stdio_server_parameters h;
     timeout := 300%Z |}.

(** The [instruction=] argument.  The f-string has no replacement field,
    so it is a constant; the backslash after the opening quotes removes
    the first line break.  The text is held as its UTF-8 bytes. *)
Definition root_instruction : string :=
"You are VAP Media Assistant - an AI media generation specialist powered by VAP's MCP server.

🎯 CAPABILITIES:
• Generate AI images (Flux) - 9 aspect ratios, high quality
• Generate AI videos (Veo 3.1) - 4-8 seconds, 720p/1080p
• Generate AI music (Suno V5) - MP3/WAV, 30-480 seconds
• Check task status and get results
• Estimate costs before generation
• Check account balance

💰 PRICING:
• Images: $0.18 fixed per image
• Videos: $1.96 fixed per video (Veo 3.1)
• Music: $0.68 fixed per track

📝 USAGE GUIDELINES:

For Image Generation:
- Ask for prompt if not provided
- Default aspect ratio: 1:1 (square)
- Available ratios: 1:1, 16:9, 9:16, 4:3, 3:4, 21:9, 9:21, 3:2, 2:3
- Style: Describe in detail for best results

For Video Generation:
- Duration: 4, 6, or 8 seconds (default: 8)
- Aspect ratio: 16:9 (landscape) or 9:16 (portrait)
- Resolution: 720p or 1080p (default: 720p)
- Audio: Can include AI-generated audio

For Music Generation:
- Duration: 30-480 seconds (default: 120)
- Format: MP3 or WAV
- Describe genre, mood, instruments, tempo

For Cost Estimation:
- Always offer to estimate costs before expensive operations
- Use estimate_video_cost for videos
- Image and music costs are fixed

For Task Status:
- Tasks take time to complete (30s-5min depending on type)
- Provide task_id to user after creation
- Offer to check status periodically
- When complete, provide the download URL

⚠️ IMPORTANT:
- If VAP_API_KEY is not set, warn the user and explain free tier limits
- Free tier: 3 images/day without API key
- Always confirm expensive operations (videos $1.96, music $0.68)
- Be clear about generation times (images: ~30s, videos: ~2min, music: ~1min)
".

Definition mcp_toolset (h : Host) : MCPToolset :=
  {| connection_params := stdio_connection_params h |}.

(** [root_agent = LlmAgent(model=..., name=..., instruction=..., tools=[...])] *)
Definition root_agent (h : Host) : LlmAgent :=
  {| model := "gemini-2.5-flash";
     name := "vap_media_assistant";
     instruction := root_instruction;
     tools := [mcp_toolset h] |}.

(** The environment mapping found in the connection descriptor. *)
Definition descriptor_env (h : Host) : gmap string string :=
  env (server_params (stdio_connection_params h)).

(** The argument list found in the connection descriptor. *)
Definition descriptor_args (h : Host) : list string :=
  args (server_params (stdio_connection_params h)).

(** A host whose environment holds exactly the given variables, for a
    user whose home directory is [/home/dev]. *)
Definition host_with (vars : list (string * string)) : Host :=
  mkHost (dict_display vars) (Some "/home/dev") ∅.

(** Sample hosts. *)
Definition host_keyless : Host :=
  host_with [("VAP_API_URL", "http://localhost:8080/mcp")].
Definition host_abc123 : Host :=
  host_with [("VAP_API_KEY", "abc123")].
Definition host_both_keys : Host :=
  host_with [("VAP_API_KEY", "primary-key"); ("VAPE_API_KEY", "legacy-key")].
Definition host_alias_only : Host :=
  host_with [("VAPE_API_KEY", "legacy-key")].
Definition host_empty_primary : Host :=
  host_with [("VAP_API_KEY", ""); ("VAPE_API_KEY", "legacy-key")].
Definition host_proxy_override : Host :=
  host_with [("VAP_MCP_PROXY_PATH", "/tmp/proxy.py"); ("HOME", "/root")].
Definition host_home_set : Host :=
  host_with [("HOME", "/home/alice/"); ("LANG", "C.UTF-8")].

(** The inputs the module reads: five variables, and what [expanduser]
    needs to expand a bare tilde. *)
Definition variables_read : list string :=
  [ "VAP_API_KEY"; "VAPE_API_KEY"; "VAP_MCP_PROXY_PATH";
    "VAP_API_URL"; "VAP_API_BASE_URL"; "HOME" ].

Definition same_inputs (h1 h2 : Host) : bool :=
  forallb (fun k => bool_decide (environ h1 !! k = environ h2 !! k)) variables_read
  && bool_decide (getpwuid_dir h1 = getpwuid_dir h2).

(** What the module reads besides the two key variables. *)
Definition variables_read_besides_key : list string :=
  [ "VAP_MCP_PROXY_PATH"; "VAP_API_URL"; "VAP_API_BASE_URL"; "HOME" ].

Definition same_inputs_besides_key (h1 h2 : Host) : bool :=
  forallb (fun k => bool_decide (environ h1 !! k = environ h2 !! k))
    variables_read_besides_key
  && bool_decide (getpwuid_dir h1 = getpwuid_dir h2).

(** An agent with the [VAP_API_KEY] entry erased from the environment
    mapping of each of its tools: the view of an observer who cannot read
    that entry. *)
Definition without_api_key (a : LlmAgent) : LlmAgent :=
  let erase (t : MCPToolset) : MCPToolset :=
    let cp := connection_params t in
    let sp := server_params cp in
    {| connection_params :=
         {| server_params :=
              {| command := command sp;
                 args := args sp;
                 env := delete "VAP_API_KEY" (env sp) |};
            timeout := timeout cp |} |} in
  {| model := model a;
     name := name a;
     instruction := instruction a;
     tools := map erase (tools a) |}.

(** [n] separators in a row. *)
Fixpoint slashes (n : nat) : string :=
  match n with
  | O => EmptyString
  | S n' => String "/" (slashes n')
  end.

(** More sample hosts. *)
Definition host_tilde_override : Host :=
  host_with [("VAP_MCP_PROXY_PATH", "~/proxy.py"); ("HOME", "/home/alice")].
Definition host_homeless : Host :=
  mkHost (dict_display [("VAP_API_KEY", "abc123")]) None ∅.
Definition host_home_bare : Host :=
  host_with [("HOME", "/home/alice")].
Definition host_url_override : Host :=
  host_with [("VAPE_API_KEY", "legacy-key"); ("VAP_API_URL", "http://localhost:8080/mcp")].
(** A child process: the mapping forwarded by [host_url_override], on top
    of a few variables of its own. *)
Definition host_child : Host :=
  mkHost (descriptor_env host_url_override ∪ dict_display [("HOME", "/srv"); ("PATH", "/usr/bin")])
         None ∅.

(** ** The model at work *)

Example rstrip_sep_inner_kept : Os.rstrip_sep "/srv//data///" = "/srv//data".
Proof. reflexivity. Qed.

Example expanduser_home_variable :
  Os.expanduser host_home_set "~/vap_mcp_proxy.py" = "/home/alice/vap_mcp_proxy.py".
Proof. reflexivity. Qed.

Example expanduser_password_database :
  Os.expanduser host_abc123 "~/vap_mcp_proxy.py" = "/home/dev/vap_mcp_proxy.py".
Proof. reflexivity. Qed.

Example expanduser_no_home :
  Os.expanduser (mkHost ∅ None ∅) "~/vap_mcp_proxy.py" = "~/vap_mcp_proxy.py".
Proof. reflexivity. Qed.

Example expanduser_root_home :
  Os.expanduser (mkHost ∅ (Some "/") ∅) "~" = "/".
Proof. reflexivity. Qed.

Example expanduser_named_user :
  Os.expanduser (mkHost ∅ None {[ "bob" := "/home/bob" ]}) "~bob/bin" = "/home/bob/bin".
Proof. reflexivity. Qed.

Example expanduser_no_tilde :
  Os.expanduser host_home_set "/opt/vap_mcp_proxy.py" = "/opt/vap_mcp_proxy.py".
Proof. reflexivity. Qed.

Example api_key_of_both : VAP_API_KEY host_both_keys = "primary-key".
Proof. reflexivity. Qed.

Example api_key_of_empty_primary : VAP_API_KEY host_empty_primary = "".
Proof. reflexivity. Qed.

Example server_env_of_abc123 :
  map_to_list (server_env host_abc123) =
    [ ("VAP_API_KEY", "abc123");
      ("VAP_API_URL", "https://api.vapagent.com/mcp");
      ("VAP_API_BASE_URL", "https://api.vapagent.com") ].
Proof. reflexivity. Qed.

Example server_env_of_empty_primary :
  map_to_list (server_env host_empty_primary) =
    [ ("VAP_API_URL", "https://api.vapagent.com/mcp");
      ("VAP_API_BASE_URL", "https://api.vapagent.com") ].
Proof. reflexivity. Qed.

Example dict_display_last_wins :
  dict_display [("k", "first"); ("k", "second")] !! "k" = Some "second".
Proof. reflexivity. Qed.

Example root_instruction_bytes : String.length root_instruction = 1709%nat.
Proof. reflexivity. Qed.

(** ** Reading the environment *)

Section Getenv.
Context (h : Host).

Lemma getenv_set key dflt v :
  environ h !! key = Some v -> Os.getenv h key dflt = v.
Proof. unfold Os.getenv. by intros ->. Qed.

Lemma getenv_unset key dflt :
  environ h !! key = None -> Os.getenv h key dflt = dflt.
Proof. unfold Os.getenv. by intros ->. Qed.

Lemma getenv_agree (h' : Host) key dflt :
  environ h !! key = environ h' !! key ->
  Os.getenv h key dflt = Os.getenv h' key dflt.
Proof. unfold Os.getenv. by intros ->. Qed.

End Getenv.

Lemma truthy_nonempty (s : string) : truthy s = true <-> s <> "".
Proof. destruct s; simpl; split; congruence. Qed.

Lemma truthy_empty (s : string) : truthy s = false <-> s = "".
Proof. destruct s; simpl; split; congruence. Qed.

(** ** The two shapes of the environment mapping *)

Section ServerEnv.
Context (h : Host).

Let api_url := Os.getenv h "VAP_API_URL" "https://api.vapagent.com/mcp".
Let api_base_url := Os.getenv h "VAP_API_BASE_URL" "https://api.vapagent.com".

Lemma server_env_keyed :
  VAP_API_KEY h <> "" ->
  server_env h =
    {[ "VAP_API_KEY" := VAP_API_KEY h;
       "VAP_API_URL" := api_url;
       "VAP_API_BASE_URL" := api_base_url ]}.
Proof.
  intros Hk%truthy_nonempty. unfold server_env. rewrite Hk.
  apply map_eq. intros k. unfold dict_display. simpl.
  rewrite !lookup_insert. repeat case_decide; by simplify_map_eq.
Qed.

Lemma server_env_keyless :
  VAP_API_KEY h = "" ->
  server_env h =
    {[ "VAP_API_URL" := api_url; "VAP_API_BASE_URL" := api_base_url ]}.
Proof.
  intros Hk%truthy_empty. unfold server_env. rewrite Hk.
  apply map_eq. intros k. unfold dict_display. simpl.
  rewrite !lookup_insert. repeat case_decide; by simplify_map_eq.
Qed.

Lemma server_env_api_url : server_env h !! "VAP_API_URL" = Some api_url.
Proof.
  destruct (decide (VAP_API_KEY h = "")) as [Hk|Hk].
  - rewrite (server_env_keyless Hk). by simplify_map_eq.
  - rewrite (server_env_keyed Hk). by simplify_map_eq.
Qed.

Lemma server_env_api_base_url :
  server_env h !! "VAP_API_BASE_URL" = Some api_base_url.
Proof.
  destruct (decide (VAP_API_KEY h = "")) as [Hk|Hk].
  - rewrite (server_env_keyless Hk). by simplify_map_eq.
  - rewrite (server_env_keyed Hk). by simplify_map_eq.
Qed.

Lemma server_env_api_key :
  server_env h !! "VAP_API_KEY" =
    if truthy (VAP_API_KEY h) then Some (VAP_API_KEY h) else None.
Proof.
  destruct (truthy (VAP_API_KEY h)) eqn:Hk.
  - apply truthy_nonempty in Hk. rewrite (server_env_keyed Hk).
    by simplify_map_eq.
  - apply truthy_empty in Hk. rewrite (server_env_keyless Hk).
    by simplify_map_eq.
Qed.

End ServerEnv.

(** ** Credentials *)

(** C1.  When neither [VAP_API_KEY] nor [VAPE_API_KEY] is set, the resolved
    credential is the empty string and the descriptor's environment mapping
    has no [VAP_API_KEY] entry at all: the key is absent from the mapping
    (not bound to an empty value), and the mapping consists of exactly the
    two URL entries. *)
Theorem keyless_environment_omits_api_key (h : Host) :
  environ h !! "VAP_API_KEY" = None ->
  environ h !! "VAPE_API_KEY" = None ->
  VAP_API_KEY h = "" /\
  descriptor_env h !! "VAP_API_KEY" = None /\
  ("VAP_API_KEY" ∉ dom (descriptor_env h)) /\
  descriptor_env h =
    {[ "VAP_API_URL" := Os.getenv h "VAP_API_URL" "https://api.vapagent.com/mcp";
       "VAP_API_BASE_URL" := Os.getenv h "VAP_API_BASE_URL" "https://api.vapagent.com" ]} /\
  size (descriptor_env h) = 2.
Proof.
  intros Hprimary Halias.
  assert (Hkey : VAP_API_KEY h = "").
  { unfold VAP_API_KEY. by rewrite !getenv_unset. }
  pose proof (server_env_keyless h Hkey) as Henv.
  unfold descriptor_env. simpl.
  assert (Hnone : server_env h !! "VAP_API_KEY" = None).
  { by rewrite server_env_api_key, Hkey. }
  repeat split; try done.
  - by apply not_elem_of_dom.
  - rewrite Henv, map_size_insert_None by done.
    by rewrite map_size_singleton.
Qed.

(** The end-to-end scenario without a key and without URL overrides. *)
Lemma keyless_default_environment (h : Host) :
  VAP_API_KEY h = "" ->
  environ h !! "VAP_API_URL" = None ->
  environ h !! "VAP_API_BASE_URL" = None ->
  descriptor_env h =
    {[ "VAP_API_URL" := "https://api.vapagent.com/mcp";
       "VAP_API_BASE_URL" := "https://api.vapagent.com" ]}.
Proof.
  intros Hkey Hurl Hbase. unfold descriptor_env. simpl.
  rewrite (server_env_keyless h Hkey).
  by rewrite (getenv_unset h _ _ Hurl), (getenv_unset h _ _ Hbase).
Qed.

(** C2.  When the primary variable [VAP_API_KEY] is set, the resolved
    credential is its value, whatever the state [alias] of the legacy
    variable [VAPE_API_KEY]: unset, or set to any string. *)
Theorem primary_key_preferred (h : Host) (v : string) (alias : option string) :
  environ h !! "VAP_API_KEY" = Some v ->
  environ h !! "VAPE_API_KEY" = alias ->
  VAP_API_KEY h = v.
Proof.
  intros Hprimary _. unfold VAP_API_KEY.
  exact (getenv_set h _ _ v Hprimary).
Qed.

(** C3.  When only the legacy variable [VAPE_API_KEY] is set, the resolved
    credential is the value of that variable. *)
Theorem alias_key_fallback (h : Host) (v : string) :
  environ h !! "VAP_API_KEY" = None ->
  environ h !! "VAPE_API_KEY" = Some v ->
  VAP_API_KEY h = v.
Proof.
  intros Hprimary Halias. unfold VAP_API_KEY.
  rewrite (getenv_unset h _ _ Hprimary).
  exact (getenv_set h _ _ v Halias).
Qed.

(** C4.  With [VAP_API_KEY] set to "abc123" and no URL override, the
    environment mapping is the three-entry mapping of the key and the two
    default URLs. *)
Theorem abc123_default_environment (h : Host) :
  environ h !! "VAP_API_KEY" = Some "abc123" ->
  environ h !! "VAP_API_URL" = None ->
  environ h !! "VAP_API_BASE_URL" = None ->
  descriptor_env h =
    {[ "VAP_API_KEY" := "abc123";
       "VAP_API_URL" := "https://api.vapagent.com/mcp";
       "VAP_API_BASE_URL" := "https://api.vapagent.com" ]}.
Proof.
  intros Hprimary Hurl Hbase. unfold descriptor_env. simpl.
  assert (Hkey : VAP_API_KEY h = "abc123").
  { unfold VAP_API_KEY. by apply getenv_set. }
  rewrite server_env_keyed by (by rewrite Hkey).
  by rewrite Hkey, (getenv_unset h _ _ Hurl), (getenv_unset h _ _ Hbase).
Qed.

(** C5.  Whatever the environment, the descriptor has a timeout of 300
    seconds, which is strictly positive, and a non-empty command. *)
Theorem descriptor_timeout_and_command (h : Host) :
  timeout (stdio_connection_params h) = 300%Z /\
  (0 < timeout (stdio_connection_params h))%Z /\
  command (server_params (stdio_connection_params h)) = "python" /\
  command (server_params (stdio_connection_params h)) <> "".
Proof.
  simpl. split; [reflexivity | split; [lia | split; [reflexivity | discriminate]]].
Qed.

(** ** The proxy path *)

Lemma substring_all (s : string) : substring 0 (String.length s) s = s.
Proof. induction s as [|c s IH]; simpl; [done | by rewrite IH]. Qed.

Lemma append_String_nonempty (s r : string) (c : ascii) :
  s +:+ String c r <> "".
Proof. by destruct s. Qed.

Lemma prefix_empty (s : string) : String.prefix "" s = true.
Proof. by destruct s. Qed.

Section TildeSlash.
Context (h : Host) (rest : string).

Let path := String "~" (String "/" rest).

Lemma find_sep_tilde_slash : Os.find_sep path = 1%nat.
Proof. unfold Os.find_sep, path. simpl. by rewrite prefix_empty. Qed.

Lemma from_index_tilde_slash : Os.from_index 1 path = String "/" rest.
Proof. unfold Os.from_index, path. simpl. by rewrite substring_all. Qed.

Lemma expanduser_tilde_slash_unfold :
  Os.expanduser h path =
    match Os.current_userhome h with
    | None => path
    | Some home =>
        match Os.rstrip_sep home +:+ String "/" rest with
        | EmptyString => "/"
        | p => p
        end
    end.
Proof.
  unfold Os.expanduser.
  rewrite find_sep_tilde_slash, from_index_tilde_slash.
  replace (String.prefix "~" path) with true by reflexivity.
  reflexivity.
Qed.

(** A path below a bare tilde is re-rooted at the home directory of the
    current user, stripped of its trailing separators. *)
Lemma expanduser_tilde_slash (home : string) :
  Os.current_userhome h = Some home ->
  Os.expanduser h path = Os.rstrip_sep home +:+ String "/" rest.
Proof.
  intros Hhome. rewrite expanduser_tilde_slash_unfold, Hhome.
  pose proof (append_String_nonempty (Os.rstrip_sep home) rest "/") as Hne.
  by destruct (Os.rstrip_sep home +:+ String "/" rest).
Qed.

(** Without a home directory the path keeps its tilde. *)
Lemma expanduser_tilde_slash_homeless :
  Os.current_userhome h = None -> Os.expanduser h path = path.
Proof. intros Hhome. by rewrite expanduser_tilde_slash_unfold, Hhome. Qed.

End TildeSlash.

(** C6.  With [VAP_MCP_PROXY_PATH] set to "/tmp/proxy.py", the argument
    list of the descriptor is the one-element list of that path. *)
Theorem proxy_path_override (h : Host) :
  environ h !! "VAP_MCP_PROXY_PATH" = Some "/tmp/proxy.py" ->
  descriptor_args h = ["/tmp/proxy.py"].
Proof.
  intros Hpath. unfold descriptor_args. simpl. f_equal.
  unfold VAP_MCP_PROXY_PATH. by apply getenv_set.
Qed.

(** C7, as stated, fails.  The claim reads: whenever [VAP_MCP_PROXY_PATH]
    is unset, the proxy path is [vap_mcp_proxy.py] resolved against the
    home directory of the user.  On a host with the override unset, [HOME]
    unset and no entry for the user in the password database there is no
    home directory, and the path is the unexpanded [~/vap_mcp_proxy.py]:
    it is the default resolved against no directory whatever. *)
Lemma proxy_path_default_counterexample :
  environ host_homeless !! "VAP_MCP_PROXY_PATH" = None /\
  VAP_MCP_PROXY_PATH host_homeless = "~/vap_mcp_proxy.py" /\
  descriptor_args host_homeless = ["~/vap_mcp_proxy.py"] /\
  ~ (exists home : string,
       Os.current_userhome host_homeless = Some home /\
       VAP_MCP_PROXY_PATH host_homeless =
         Os.rstrip_sep home +:+ "/vap_mcp_proxy.py").
Proof.
  split; [reflexivity | split; [reflexivity | split; [reflexivity |]]].
  intros (home & Hhome & _). vm_compute in Hhome. discriminate Hhome.
Qed.

(** C7, amended.  With [VAP_MCP_PROXY_PATH] unset, the proxy path is the
    expansion of [~/vap_mcp_proxy.py] and the only element of the
    descriptor's argument list.  When the user has a home directory
    ([HOME], or else the password database) the path is the file
    [vap_mcp_proxy.py] directly below it; when there is none, the path is
    the unexpanded [~/vap_mcp_proxy.py]. *)
Theorem proxy_path_default (h : Host) :
  environ h !! "VAP_MCP_PROXY_PATH" = None ->
  VAP_MCP_PROXY_PATH h = Os.expanduser h "~/vap_mcp_proxy.py" /\
  descriptor_args h = [VAP_MCP_PROXY_PATH h] /\
  (forall home : string,
     Os.current_userhome h = Some home ->
     VAP_MCP_PROXY_PATH h = Os.rstrip_sep home +:+ "/vap_mcp_proxy.py") /\
  (Os.current_userhome h = None ->
   VAP_MCP_PROXY_PATH h = "~/vap_mcp_proxy.py").
Proof.
  intros Hpath.
  assert (Hdefault : VAP_MCP_PROXY_PATH h = Os.expanduser h "~/vap_mcp_proxy.py").
  { unfold VAP_MCP_PROXY_PATH. by apply getenv_unset. }
  split; [exact Hdefault | split; [reflexivity |]].
  rewrite Hdefault. split.
  - intros home Hhome.
    exact (expanduser_tilde_slash h "vap_mcp_proxy.py" home Hhome).
  - intros Hhome.
    exact (expanduser_tilde_slash_homeless h "vap_mcp_proxy.py" Hhome).
Qed.

(** ** The agent configuration as a function of what the module reads *)

Section SameInputs.
Context (h1 h2 : Host).
Hypothesis Hsame : same_inputs h1 h2 = true.

Lemma same_inputs_lookup (k : string) :
  k ∈ variables_read -> environ h1 !! k = environ h2 !! k.
Proof using Hsame.
  intros Hk%list_elem_of_In.
  apply andb_true_iff in Hsame as [Hall _].
  rewrite forallb_forall in Hall.
  specialize (Hall k Hk). by apply bool_decide_eq_true_1 in Hall.
Qed.

Lemma same_inputs_getenv (k dflt : string) :
  k ∈ variables_read -> Os.getenv h1 k dflt = Os.getenv h2 k dflt.
Proof using Hsame. intros Hk. by apply getenv_agree, same_inputs_lookup. Qed.

Lemma same_inputs_userhome :
  Os.current_userhome h1 = Os.current_userhome h2.
Proof using Hsame.
  unfold Os.current_userhome.
  rewrite (same_inputs_lookup "HOME") by set_solver.
  apply andb_true_iff in Hsame as [_ Hpw%bool_decide_eq_true].
  by rewrite Hpw.
Qed.

Lemma same_inputs_api_key : VAP_API_KEY h1 = VAP_API_KEY h2.
Proof using Hsame.
  unfold VAP_API_KEY.
  rewrite (same_inputs_getenv "VAPE_API_KEY") by set_solver.
  apply same_inputs_getenv. set_solver.
Qed.

Lemma same_inputs_proxy_path : VAP_MCP_PROXY_PATH h1 = VAP_MCP_PROXY_PATH h2.
Proof using Hsame.
  unfold VAP_MCP_PROXY_PATH.
  rewrite !expanduser_tilde_slash_unfold, same_inputs_userhome.
  apply same_inputs_getenv. set_solver.
Qed.

Lemma same_inputs_server_env : server_env h1 = server_env h2.
Proof using Hsame.
  unfold server_env. rewrite same_inputs_api_key.
  rewrite (same_inputs_getenv "VAP_API_URL") by set_solver.
  by rewrite (same_inputs_getenv "VAP_API_BASE_URL") by set_solver.
Qed.

End SameInputs.

Lemma same_inputs_refl (h : Host) : same_inputs h h = true.
Proof.
  unfold same_inputs. apply andb_true_iff. split.
  - apply forallb_forall. intros k _. by apply bool_decide_eq_true_2.
  - by apply bool_decide_eq_true_2.
Qed.

(** C8.  Building the agent is deterministic: two builds whose hosts agree
    on what the module reads (the five variables, and the home directory
    that the default proxy path is resolved against) give equal agents:
    the same model, name, instruction and tool descriptor.  Two builds
    under one and the same environment are the special case
    [same_inputs_refl]. *)
Theorem root_agent_deterministic (h1 h2 : Host) :
  same_inputs h1 h2 = true -> root_agent h1 = root_agent h2.
Proof.
  intros Hsame. unfold root_agent, mcp_toolset, stdio_connection_params.
  unfold stdio_server_parameters.
  rewrite (same_inputs_proxy_path h1 h2 Hsame).
  by rewrite (same_inputs_server_env h1 h2 Hsame).
Qed.

(** ** Presence of the key, and the URL entries *)

(** C9.  The environment mapping has a [VAP_API_KEY] entry exactly when the
    resolved credential is a non-empty string.  In particular, when
    [VAP_API_KEY] is set to the empty string the resolved credential is
    empty, whatever [VAPE_API_KEY] holds, and the mapping has no
    [VAP_API_KEY] entry. *)
Theorem api_key_entry_iff_nonempty (h : Host) :
  (is_Some (descriptor_env h !! "VAP_API_KEY") <-> VAP_API_KEY h <> "") /\
  (environ h !! "VAP_API_KEY" = Some "" ->
   VAP_API_KEY h = "" /\ descriptor_env h !! "VAP_API_KEY" = None).
Proof.
  unfold descriptor_env. simpl. rewrite server_env_api_key. split.
  - destruct (truthy (VAP_API_KEY h)) eqn:Hk.
    + apply truthy_nonempty in Hk. split; [done | by eexists].
    + apply truthy_empty in Hk. split; [by intros [? ?] | done].
  - intros Hprimary.
    assert (Hkey : VAP_API_KEY h = "").
    { unfold VAP_API_KEY. by apply getenv_set. }
    by rewrite Hkey.
Qed.

(** C10.  The environment mapping always has both URL entries, each the
    value of its variable when that is set and the hardcoded default
    otherwise.  Hence two hosts that agree on the two URL variables get
    the same two URL entries, whatever their key variables hold. *)
Theorem url_entries_ignore_credentials (h : Host) :
  descriptor_env h !! "VAP_API_URL" =
    Some (default "https://api.vapagent.com/mcp" (environ h !! "VAP_API_URL")) /\
  descriptor_env h !! "VAP_API_BASE_URL" =
    Some (default "https://api.vapagent.com" (environ h !! "VAP_API_BASE_URL")) /\
  (forall h' : Host,
     environ h' !! "VAP_API_URL" = environ h !! "VAP_API_URL" ->
     environ h' !! "VAP_API_BASE_URL" = environ h !! "VAP_API_BASE_URL" ->
     descriptor_env h' !! "VAP_API_URL" = descriptor_env h !! "VAP_API_URL" /\
     descriptor_env h' !! "VAP_API_BASE_URL" = descriptor_env h !! "VAP_API_BASE_URL").
Proof.
  unfold descriptor_env. simpl.
  split; [apply server_env_api_url | split; [apply server_env_api_base_url |]].
  intros h' Hurl Hbase.
  rewrite !server_env_api_url, !server_env_api_base_url.
  split; f_equal; by apply getenv_agree.
Qed.

(** ** The theorems at sample hosts *)

Lemma keyless_environment_omits_api_key_witness :
  (environ host_keyless !! "VAP_API_KEY" = None /\
   environ host_keyless !! "VAPE_API_KEY" = None) /\
  VAP_API_KEY host_keyless = "" /\
  descriptor_env host_keyless !! "VAP_API_KEY" = None /\
  ("VAP_API_KEY" ∉ dom (descriptor_env host_keyless)) /\
  descriptor_env host_keyless =
    {[ "VAP_API_URL" :=
         Os.getenv host_keyless "VAP_API_URL" "https://api.vapagent.com/mcp";
       "VAP_API_BASE_URL" :=
         Os.getenv host_keyless "VAP_API_BASE_URL" "https://api.vapagent.com" ]} /\
  size (descriptor_env host_keyless) = 2.
Proof.
  split; [split; reflexivity |].
  apply (keyless_environment_omits_api_key host_keyless); reflexivity.
Defined.

Lemma primary_key_preferred_witness :
  (environ host_both_keys !! "VAP_API_KEY" = Some "primary-key" /\
   environ host_both_keys !! "VAPE_API_KEY" = Some "legacy-key") /\
  VAP_API_KEY host_both_keys = "primary-key".
Proof.
  split; [split; reflexivity |].
  apply (primary_key_preferred host_both_keys "primary-key" (Some "legacy-key"));
    reflexivity.
Defined.

Lemma alias_key_fallback_witness :
  (environ host_alias_only !! "VAP_API_KEY" = None /\
   environ host_alias_only !! "VAPE_API_KEY" = Some "legacy-key") /\
  VAP_API_KEY host_alias_only = "legacy-key".
Proof.
  split; [split; reflexivity |].
  apply (alias_key_fallback host_alias_only "legacy-key"); reflexivity.
Defined.

Lemma abc123_default_environment_witness :
  (environ host_abc123 !! "VAP_API_KEY" = Some "abc123" /\
   environ host_abc123 !! "VAP_API_URL" = None /\
   environ host_abc123 !! "VAP_API_BASE_URL" = None) /\
  descriptor_env host_abc123 =
    {[ "VAP_API_KEY" := "abc123";
       "VAP_API_URL" := "https://api.vapagent.com/mcp";
       "VAP_API_BASE_URL" := "https://api.vapagent.com" ]}.
Proof.
  split; [repeat split; reflexivity |].
  apply (abc123_default_environment host_abc123); reflexivity.
Defined.

Lemma proxy_path_override_witness :
  environ host_proxy_override !! "VAP_MCP_PROXY_PATH" = Some "/tmp/proxy.py" /\
  descriptor_args host_proxy_override = ["/tmp/proxy.py"].
Proof.
  split; [reflexivity |].
  apply (proxy_path_override host_proxy_override); reflexivity.
Defined.

Lemma proxy_path_default_witness :
  (environ host_home_set !! "VAP_MCP_PROXY_PATH" = None /\
   Os.current_userhome host_home_set = Some "/home/alice/") /\
  descriptor_args host_home_set = [VAP_MCP_PROXY_PATH host_home_set] /\
  VAP_MCP_PROXY_PATH host_home_set = "/home/alice/vap_mcp_proxy.py".
Proof.
  split; [split; reflexivity |].
  destruct (proxy_path_default host_home_set eq_refl) as (_ & Hargs & Hhome & _).
  split; [exact Hargs |].
  exact (Hhome "/home/alice/" eq_refl).
Defined.

Lemma root_agent_deterministic_witness :
  same_inputs host_abc123 host_abc123 = true /\
  root_agent host_abc123 = root_agent host_abc123.
Proof.
  split; [reflexivity |].
  apply (root_agent_deterministic host_abc123 host_abc123); reflexivity.
Defined.

Lemma api_key_entry_iff_nonempty_witness :
  (environ host_empty_primary !! "VAP_API_KEY" = Some "" /\
   environ host_empty_primary !! "VAPE_API_KEY" = Some "legacy-key") /\
  VAP_API_KEY host_empty_primary = "" /\
  descriptor_env host_empty_primary !! "VAP_API_KEY" = None.
Proof.
  split; [split; reflexivity |].
  exact (proj2 (api_key_entry_iff_nonempty host_empty_primary) eq_refl).
Defined.

Lemma url_entries_ignore_credentials_witness :
  (environ host_abc123 !! "VAP_API_URL" = environ host_alias_only !! "VAP_API_URL" /\
   environ host_abc123 !! "VAP_API_BASE_URL" =
     environ host_alias_only !! "VAP_API_BASE_URL") /\
  descriptor_env host_abc123 !! "VAP_API_URL" =
    descriptor_env host_alias_only !! "VAP_API_URL" /\
  descriptor_env host_abc123 !! "VAP_API_BASE_URL" =
    descriptor_env host_alias_only !! "VAP_API_BASE_URL".
Proof.
  split; [split; reflexivity |].
  exact (proj2 (proj2 (url_entries_ignore_credentials host_alias_only))
           host_abc123 eq_refl eq_refl).
Defined.

(** ** What reaches the child process, and what does not *)

Section Forwarded.
Context (h : Host).

Lemma server_env_other (k : string) :
  k <> "VAP_API_KEY" -> k <> "VAP_API_URL" -> k <> "VAP_API_BASE_URL" ->
  server_env h !! k = None.
Proof.
  intros Hkey Hurl Hbase.
  destruct (decide (VAP_API_KEY h = "")) as [Hk|Hk].
  - rewrite (server_env_keyless h Hk). by simplify_map_eq.
  - rewrite (server_env_keyed h Hk). by simplify_map_eq.
Qed.

Lemma server_env_dom :
  dom (server_env h) =
    (if truthy (VAP_API_KEY h) then {[ "VAP_API_KEY" ]} else ∅)
    ∪ {[ "VAP_API_URL"; "VAP_API_BASE_URL" ]}.
Proof.
  destruct (truthy (VAP_API_KEY h)) eqn:Hk.
  - apply truthy_nonempty in Hk. rewrite (server_env_keyed h Hk).
    rewrite !dom_insert_L, dom_singleton_L. set_solver.
  - apply truthy_empty in Hk. rewrite (server_env_keyless h Hk).
    rewrite dom_insert_L, dom_singleton_L. set_solver.
Qed.

Lemma server_env_delete_key :
  delete "VAP_API_KEY" (server_env h) =
    {[ "VAP_API_URL" := Os.getenv h "VAP_API_URL" "https://api.vapagent.com/mcp";
       "VAP_API_BASE_URL" := Os.getenv h "VAP_API_BASE_URL" "https://api.vapagent.com" ]}.
Proof.
  apply map_eq. intros k.
  destruct (decide (k = "VAP_API_KEY")) as [->|Hkey].
  { rewrite lookup_delete_eq. by simplify_map_eq. }
  rewrite lookup_delete_ne by done.
  destruct (decide (k = "VAP_API_URL")) as [->|Hurl].
  { rewrite server_env_api_url. by simplify_map_eq. }
  destruct (decide (k = "VAP_API_BASE_URL")) as [->|Hbase].
  { rewrite server_env_api_base_url. by simplify_map_eq. }
  rewrite server_env_other by done. by simplify_map_eq.
Qed.

(** A process that finds, under the two key names, what the mapping holds
    for them resolves the credential this host resolved. *)
Lemma forwarded_api_key (child : Host) :
  environ child !! "VAP_API_KEY" = server_env h !! "VAP_API_KEY" ->
  environ child !! "VAPE_API_KEY" = server_env h !! "VAPE_API_KEY" ->
  VAP_API_KEY child = VAP_API_KEY h.
Proof.
  rewrite server_env_api_key, server_env_other by done.
  intros Hprimary Halias. unfold VAP_API_KEY at 1.
  destruct (truthy (VAP_API_KEY h)) eqn:Hk.
  - by apply getenv_set.
  - apply truthy_empty in Hk. by rewrite !getenv_unset.
Qed.

End Forwarded.

(** X1.  The environment mapping binds the two URL names, binds
    [VAP_API_KEY] exactly when the resolved credential is non-empty, and
    binds nothing else: it has two or three entries, and no other variable
    of the host is passed on through it. *)
Theorem descriptor_env_domain (h : Host) :
  dom (descriptor_env h) =
    (if truthy (VAP_API_KEY h) then {[ "VAP_API_KEY" ]} else ∅)
    ∪ {[ "VAP_API_URL"; "VAP_API_BASE_URL" ]} /\
  size (descriptor_env h) = (if truthy (VAP_API_KEY h) then 3 else 2) /\
  (forall k : string,
     k <> "VAP_API_KEY" -> k <> "VAP_API_URL" -> k <> "VAP_API_BASE_URL" ->
     descriptor_env h !! k = None).
Proof.
  unfold descriptor_env. simpl.
  split; [apply server_env_dom | split; [| apply server_env_other]].
  destruct (truthy (VAP_API_KEY h)) eqn:Hk.
  - apply truthy_nonempty in Hk. rewrite (server_env_keyed h Hk).
    rewrite !map_size_insert_None by (by simplify_map_eq).
    by rewrite map_size_singleton.
  - apply truthy_empty in Hk. rewrite (server_env_keyless h Hk).
    rewrite map_size_insert_None by (by simplify_map_eq).
    by rewrite map_size_singleton.
Qed.

(** X2.  A [VAP_API_KEY] entry of the mapping is never empty, and it is
    the resolved credential. *)
Theorem forwarded_key_is_credential (h : Host) (v : string) :
  descriptor_env h !! "VAP_API_KEY" = Some v ->
  v = VAP_API_KEY h /\ v <> "".
Proof.
  unfold descriptor_env. simpl. rewrite server_env_api_key.
  destruct (truthy (VAP_API_KEY h)) eqn:Hk; [| discriminate].
  intros [= <-]. split; [reflexivity | by apply truthy_nonempty].
Qed.

(** X3.  A non-empty key that the host holds only under the legacy name
    [VAPE_API_KEY] is passed on under the name [VAP_API_KEY]; the legacy
    name itself is not passed on. *)
Theorem alias_forwarded_under_primary_name (h : Host) (v : string) :
  environ h !! "VAP_API_KEY" = None ->
  environ h !! "VAPE_API_KEY" = Some v ->
  v <> "" ->
  descriptor_env h !! "VAP_API_KEY" = Some v /\
  descriptor_env h !! "VAPE_API_KEY" = None.
Proof.
  intros Hprimary Halias Hv. unfold descriptor_env. simpl.
  assert (Hkey : VAP_API_KEY h = v).
  { unfold VAP_API_KEY. rewrite (getenv_unset h _ _ Hprimary).
    by apply getenv_set. }
  split; [| by apply server_env_other].
  rewrite server_env_api_key, Hkey.
  apply truthy_nonempty in Hv. by rewrite Hv.
Qed.

(** X4.  Omitting an empty key loses nothing: a process whose environment
    holds, under the two key names, what the mapping holds for them
    resolves the same credential with the module's own rule. *)
Theorem child_resolves_same_credential (h child : Host) :
  environ child !! "VAP_API_KEY" = descriptor_env h !! "VAP_API_KEY" ->
  environ child !! "VAPE_API_KEY" = descriptor_env h !! "VAPE_API_KEY" ->
  VAP_API_KEY child = VAP_API_KEY h.
Proof. unfold descriptor_env. simpl. apply forwarded_api_key. Qed.

(** X5.  The mapping is a fixed point of the module: built again in a
    process whose environment holds the forwarded values under the four
    names the mapping depends on, it is the same mapping. *)
Theorem descriptor_env_fixed_point (h child : Host) :
  environ child !! "VAP_API_KEY" = descriptor_env h !! "VAP_API_KEY" ->
  environ child !! "VAPE_API_KEY" = descriptor_env h !! "VAPE_API_KEY" ->
  environ child !! "VAP_API_URL" = descriptor_env h !! "VAP_API_URL" ->
  environ child !! "VAP_API_BASE_URL" = descriptor_env h !! "VAP_API_BASE_URL" ->
  descriptor_env child = descriptor_env h.
Proof.
  unfold descriptor_env. simpl.
  rewrite server_env_api_url, server_env_api_base_url.
  intros Hprimary Halias Hurl Hbase.
  pose proof (forwarded_api_key h child Hprimary Halias) as Hkey.
  unfold server_env. rewrite Hkey.
  rewrite (getenv_set child "VAP_API_URL" _ _ Hurl).
  by rewrite (getenv_set child "VAP_API_BASE_URL" _ _ Hbase).
Qed.

(** ** The agent as a function of the four resolved values *)




Section BesidesKey.
Context (h1 h2 : Host).
Hypothesis Hsame : same_inputs_besides_key h1 h2 = true.

Lemma besides_key_lookup (k : string) :
  k ∈ variables_read_besides_key -> environ h1 !! k = environ h2 !! k.
Proof using Hsame.
  intros Hk%list_elem_of_In.
  apply andb_true_iff in Hsame as [Hall _].
  rewrite forallb_forall in Hall.
  specialize (Hall k Hk). by apply bool_decide_eq_true_1 in Hall.
Qed.

Lemma besides_key_proxy_path : VAP_MCP_PROXY_PATH h1 = VAP_MCP_PROXY_PATH h2.
Proof using Hsame.
  unfold VAP_MCP_PROXY_PATH, Os.getenv.
  rewrite !expanduser_tilde_slash_unfold. unfold Os.current_userhome.
  rewrite (besides_key_lookup "VAP_MCP_PROXY_PATH") by set_solver.
  rewrite (besides_key_lookup "HOME") by set_solver.
  apply andb_true_iff in Hsame as [_ Hpw%bool_decide_eq_true].
  by rewrite Hpw.
Qed.

Lemma besides_key_server_env :
  delete "VAP_API_KEY" (server_env h1) = delete "VAP_API_KEY" (server_env h2).
Proof using Hsame.
  rewrite !server_env_delete_key. unfold Os.getenv.
  rewrite (besides_key_lookup "VAP_API_URL") by set_solver.
  by rewrite (besides_key_lookup "VAP_API_BASE_URL") by set_solver.
Qed.

End BesidesKey.

(** X7.  The credential reaches the agent only as the [VAP_API_KEY] entry
    of the environment mapping: two hosts that agree on everything the
    module reads besides the two key variables get agents that are equal
    once that entry is erased.  Model, name, instruction, command,
    arguments, timeout and the URL entries carry nothing of the key. *)
Theorem credential_confined_to_key_entry (h1 h2 : Host) :
  same_inputs_besides_key h1 h2 = true ->
  without_api_key (root_agent h1) = without_api_key (root_agent h2).
Proof.
  intros Hsame. unfold without_api_key. simpl.
  rewrite (besides_key_proxy_path h1 h2 Hsame).
  by rewrite (besides_key_server_env h1 h2 Hsame).
Qed.

(** ** The proxy path: override and default *)

Lemma rstrip_sep_slashes (n : nat) : Os.rstrip_sep (slashes n) = "".
Proof. induction n as [|n IH]; simpl; [done | by rewrite IH]. Qed.

Lemma rstrip_sep_app_slashes (s : string) (n : nat) :
  Os.rstrip_sep (s +:+ slashes n) = Os.rstrip_sep s.
Proof.
  induction s as [|c s IH]; simpl.
  - apply rstrip_sep_slashes.
  - by rewrite IH.
Qed.

(** X8.  An override of the proxy path is used as it is: whatever string
    [VAP_MCP_PROXY_PATH] holds (a path with a tilde, the empty string) is
    the proxy path and the only argument; no tilde is expanded in it and
    the home directory plays no part. *)
Theorem proxy_path_override_verbatim (h : Host) (v : string) :
  environ h !! "VAP_MCP_PROXY_PATH" = Some v ->
  VAP_MCP_PROXY_PATH h = v /\ descriptor_args h = [v].
Proof.
  intros Hpath.
  assert (Hv : VAP_MCP_PROXY_PATH h = v).
  { unfold VAP_MCP_PROXY_PATH. by apply getenv_set. }
  split; [exact Hv |]. unfold descriptor_args. simpl. by rewrite Hv.
Qed.

(** X9.  With no override and no home directory to be found ([HOME] unset
    and no entry for the user in the password database), the argument is
    the unexpanded [~/vap_mcp_proxy.py]: the module does not fail. *)
Theorem proxy_path_default_homeless (h : Host) :
  environ h !! "VAP_MCP_PROXY_PATH" = None ->
  environ h !! "HOME" = None ->
  getpwuid_dir h = None ->
  descriptor_args h = ["~/vap_mcp_proxy.py"].
Proof.
  intros Hpath Hhome Hpw. unfold descriptor_args. simpl. f_equal.
  unfold VAP_MCP_PROXY_PATH. rewrite (getenv_unset h _ _ Hpath).
  apply expanduser_tilde_slash_homeless.
  unfold Os.current_userhome. by rewrite Hhome.
Qed.

(** X10.  Separators at the end of the home directory do not matter to
    the default proxy path: a home written with [n] more of them gives
    the same path. *)
Theorem proxy_path_default_trailing_separators (h h' : Host) (home : string) (n : nat) :
  environ h !! "VAP_MCP_PROXY_PATH" = None ->
  environ h' !! "VAP_MCP_PROXY_PATH" = None ->
  Os.current_userhome h = Some home ->
  Os.current_userhome h' = Some (home +:+ slashes n) ->
  VAP_MCP_PROXY_PATH h' = VAP_MCP_PROXY_PATH h.
Proof.
  intros Hpath Hpath' Hhome Hhome'. unfold VAP_MCP_PROXY_PATH.
  rewrite (getenv_unset h _ _ Hpath), (getenv_unset h' _ _ Hpath').
  rewrite (expanduser_tilde_slash h _ home Hhome).
  rewrite (expanduser_tilde_slash h' _ _ Hhome').
  by rewrite rstrip_sep_app_slashes.
Qed.

(** ** These theorems at sample hosts *)

Lemma descriptor_env_domain_witness :
  environ host_url_override !! "VAPE_API_KEY" = Some "legacy-key" /\
  descriptor_env host_url_override !! "VAPE_API_KEY" = None.
Proof.
  split; [reflexivity |].
  apply (proj2 (proj2 (descriptor_env_domain host_url_override)));
    discriminate.
Defined.

Lemma forwarded_key_is_credential_witness :
  descriptor_env host_both_keys !! "VAP_API_KEY" = Some "primary-key" /\
  "primary-key" = VAP_API_KEY host_both_keys /\ "primary-key" <> "".
Proof.
  split; [reflexivity |].
  apply (forwarded_key_is_credential host_both_keys "primary-key"); reflexivity.
Defined.

Lemma alias_forwarded_under_primary_name_witness :
  (environ host_alias_only !! "VAP_API_KEY" = None /\
   environ host_alias_only !! "VAPE_API_KEY" = Some "legacy-key" /\
   "legacy-key" <> "") /\
  descriptor_env host_alias_only !! "VAP_API_KEY" = Some "legacy-key" /\
  descriptor_env host_alias_only !! "VAPE_API_KEY" = None.
Proof.
  split; [split; [reflexivity | split; [reflexivity | discriminate]] |].
  apply (alias_forwarded_under_primary_name host_alias_only "legacy-key");
    [reflexivity | reflexivity | discriminate].
Defined.

Lemma child_resolves_same_credential_witness :
  (environ host_child !! "VAP_API_KEY" =
     descriptor_env host_url_override !! "VAP_API_KEY" /\
   environ host_child !! "VAPE_API_KEY" =
     descriptor_env host_url_override !! "VAPE_API_KEY") /\
  VAP_API_KEY host_child = VAP_API_KEY host_url_override.
Proof.
  split; [split; reflexivity |].
  apply (child_resolves_same_credential host_url_override host_child);
    reflexivity.
Defined.

Lemma descriptor_env_fixed_point_witness :
  (environ host_child !! "VAP_API_KEY" =
     descriptor_env host_url_override !! "VAP_API_KEY" /\
   environ host_child !! "VAPE_API_KEY" =
     descriptor_env host_url_override !! "VAPE_API_KEY" /\
   environ host_child !! "VAP_API_URL" =
     descriptor_env host_url_override !! "VAP_API_URL" /\
   environ host_child !! "VAP_API_BASE_URL" =
     descriptor_env host_url_override !! "VAP_API_BASE_URL") /\
  descriptor_env host_child = descriptor_env host_url_override.
Proof.
  split; [repeat split; reflexivity |].
  apply (descriptor_env_fixed_point host_url_override host_child);
    reflexivity.
Defined.


Lemma credential_confined_to_key_entry_witness :
  (same_inputs_besides_key host_abc123 host_alias_only = true /\
   VAP_API_KEY host_abc123 <> VAP_API_KEY host_alias_only) /\
  without_api_key (root_agent host_abc123) =
    without_api_key (root_agent host_alias_only).
Proof.
  split; [split; [reflexivity | discriminate] |].
  apply (credential_confined_to_key_entry host_abc123 host_alias_only);
    reflexivity.
Defined.

Lemma proxy_path_override_verbatim_witness :
  environ host_tilde_override !! "VAP_MCP_PROXY_PATH" = Some "~/proxy.py" /\
  VAP_MCP_PROXY_PATH host_tilde_override = "~/proxy.py" /\
  descriptor_args host_tilde_override = ["~/proxy.py"].
Proof.
  split; [reflexivity |].
  apply (proxy_path_override_verbatim host_tilde_override "~/proxy.py");
    reflexivity.
Defined.

Lemma proxy_path_default_homeless_witness :
  (environ host_homeless !! "VAP_MCP_PROXY_PATH" = None /\
   environ host_homeless !! "HOME" = None /\
   getpwuid_dir host_homeless = None) /\
  descriptor_args host_homeless = ["~/vap_mcp_proxy.py"].
Proof.
  split; [repeat split; reflexivity |].
  apply (proxy_path_default_homeless host_homeless); reflexivity.
Defined.

Lemma proxy_path_default_trailing_separators_witness :
  (environ host_home_bare !! "VAP_MCP_PROXY_PATH" = None /\
   environ host_home_set !! "VAP_MCP_PROXY_PATH" = None /\
   Os.current_userhome host_home_bare = Some "/home/alice" /\
   Os.current_userhome host_home_set = Some ("/home/alice" +:+ slashes 1)) /\
  VAP_MCP_PROXY_PATH host_home_set = VAP_MCP_PROXY_PATH host_home_bare.
Proof.
  split; [repeat split; reflexivity |].
  apply (proxy_path_default_trailing_separators
           host_home_bare host_home_set "/home/alice" 1); reflexivity.
Defined.
